(** * The automatic-newline external scanner of the dang tree-sitter grammar

    A shallow embedding of [src/treesitter/src/scanner.c] together with the
    properties its description states about it.  The scanner decides, for a
    newline under the lexer cursor, whether it separates two statements or
    is plain whitespace inside a multi-line expression. *)

From Equations Require Import Equations.
From Equations.Prop Require Import Logic.
From Stdlib Require Import ZArith List Bool Lia.
Import ListNotations.
Open Scope Z_scope.

(** ** External token kinds

    [enum { AUTOMATIC_NEWLINE, }]: the only external token, numbered 0. *)

Definition AUTOMATIC_NEWLINE : Z := 0.

(** ** Pointers

    The payload is a [void *]; only its value matters here. *)

Definition pointer := Z.
Definition NULL : pointer := 0.

(** ** The host cursor *)

(** Modelled from the spec: the [TSLexer] of [tree_sitter/parser.h], which
    the scanner includes but which is not among the sources.  The cursor
    exposes the next unconsumed character or an end-of-input marker
    ([lookahead], 0 at end of input), an operation that consumes the current
    character ([advance], without effect at end of input), a query for "no
    more input" ([eof]) and the [result_symbol] slot the scanner writes.
    Characters are [int32_t] code points, kept as [Z].

    Two fields only observe the run: [token] is the text consumed into the
    token being built (an [advance] with [skip] restarts it), and
    [advance_calls] counts every call of [advance], also those made at end
    of input. *)
Record TSLexer := mkLexer {
  token : list Z;
  remaining : list Z;
  result_symbol : Z;
  advance_calls : nat
}.

(** [lexer->lookahead]. *)
Definition lookahead (lexer : TSLexer) : Z :=
  match remaining lexer with
  | [] => 0
  | c :: _ => c
  end.

(** [lexer->eof(lexer)]. *)
Definition eof (lexer : TSLexer) : bool :=
  match remaining lexer with
  | [] => true
  | _ :: _ => false
  end.

(** [lexer->advance(lexer, skip)]. *)
Definition advance (lexer : TSLexer) (skip : bool) : TSLexer :=
  match remaining lexer with
  | [] =>
      mkLexer (token lexer) [] (result_symbol lexer) (S (advance_calls lexer))
  | c :: rest =>
      mkLexer (if skip then [] else token lexer ++ [c]) rest
              (result_symbol lexer) (S (advance_calls lexer))
  end.

(** [lexer->result_symbol = sym]. *)
Definition set_result_symbol (lexer : TSLexer) (sym : Z) : TSLexer :=
  mkLexer (token lexer) (remaining lexer) sym (advance_calls lexer).

(** ** The scanner *)

(** [is_continuation_start]: ['.'] is 46, ['{'] is 123, ['|'] is 124. *)
Definition is_continuation_start (c : Z) : bool :=
  match c with
  | 46 => true
  | 123 => true
  | 124 => true
  | _ => false
  end.

(** The condition of the [while] loop of the scan function: the lookahead
    is [' '] (32), ['\t'] (9), ['\r'] (13) or ['\n'] (10). *)
Definition at_whitespace (lexer : TSLexer) : bool :=
  (lookahead lexer =? 32) || (lookahead lexer =? 9) ||
  (lookahead lexer =? 13) || (lookahead lexer =? 10).

(** [while (lookahead is whitespace) lexer->advance(lexer, false);]

    The recursion is on the number of unconsumed characters: the
    end-of-input marker is none of the four characters, so the cursor is
    not at the end when the condition holds, and the call of [advance]
    consumes one character. *)
Equations skip_whitespace (lexer : TSLexer) : TSLexer
  by wf (length (remaining lexer)) lt :=
  skip_whitespace lexer with inspect (at_whitespace lexer) := {
    | exist _ true _ => skip_whitespace (advance lexer false)
    | exist _ false _ => lexer }.
Next Obligation.
  match goal with H : at_whitespace _ = true |- _ => revert H end.
  unfold at_whitespace, lookahead, advance.
  destruct (remaining lexer); simpl; [discriminate | lia].
Qed.

(** [tree_sitter_dang_external_scanner_scan]: the verdict is the returned
    [bool] ([true] for a separator), paired with the lexer as the call
    leaves it.  [valid_symbols] is the host's array of permitted external
    tokens, read at index [AUTOMATIC_NEWLINE] only. *)
Definition tree_sitter_dang_external_scanner_scan
    (payload : pointer) (lexer : TSLexer) (valid_symbols : Z -> bool)
  : bool * TSLexer :=
  if negb (valid_symbols AUTOMATIC_NEWLINE) then (false, lexer)
  else if negb (lookahead lexer =? 10) then (false, lexer)
  else
    let lexer := advance lexer false in
    let lexer := skip_whitespace lexer in
    if is_continuation_start (lookahead lexer) then (false, lexer)
    else if eof lexer then (false, lexer)
    else (true, set_result_symbol lexer AUTOMATIC_NEWLINE).

(** ** The scanner's life cycle *)

(** What the life-cycle functions could touch: the heap blocks that are
    live and the bytes of the host's serialization buffer. *)
Record Memory := mkMemory {
  allocated : list pointer;
  buffer : list Z
}.

(** [tree_sitter_dang_external_scanner_create]. *)
Definition tree_sitter_dang_external_scanner_create (m : Memory)
  : pointer * Memory :=
  (NULL, m).

(** [tree_sitter_dang_external_scanner_destroy]. *)
Definition tree_sitter_dang_external_scanner_destroy
    (payload : pointer) (m : Memory) : Memory :=
  m.

(** [tree_sitter_dang_external_scanner_serialize]: the buffer argument
    points to [buffer m]; the result is the number of bytes written. *)
Definition tree_sitter_dang_external_scanner_serialize
    (payload : pointer) (m : Memory) : Z * Memory :=
  (0, m).

(** [tree_sitter_dang_external_scanner_deserialize]: the [const] buffer
    argument is passed by value. *)
Definition tree_sitter_dang_external_scanner_deserialize
    (payload : pointer) (buf : list Z) (length : Z) (m : Memory) : Memory :=
  m.

(** ** Sessions of the host *)

(** The host owns the cursor and the memory, and calls the five entry
    points in any order; between two calls it may move the cursor as it
    likes ([Reposition]). *)
Record World := mkWorld {
  w_lexer : TSLexer;
  w_memory : Memory
}.

Inductive Call :=
| Create
| Destroy (payload : pointer)
| Serialize (payload : pointer)
| Deserialize (payload : pointer) (buf : list Z) (length : Z)
| Scan (payload : pointer) (valid_symbols : Z -> bool)
| Reposition (lexer : TSLexer).

Definition call (w : World) (c : Call) : World :=
  match c with
  | Create =>
      mkWorld (w_lexer w)
        (snd (tree_sitter_dang_external_scanner_create (w_memory w)))
  | Destroy payload =>
      mkWorld (w_lexer w)
        (tree_sitter_dang_external_scanner_destroy payload (w_memory w))
  | Serialize payload =>
      mkWorld (w_lexer w)
        (snd (tree_sitter_dang_external_scanner_serialize payload (w_memory w)))
  | Deserialize payload buf length =>
      mkWorld (w_lexer w)
        (tree_sitter_dang_external_scanner_deserialize
           payload buf length (w_memory w))
  | Scan payload valid_symbols =>
      mkWorld
        (snd (tree_sitter_dang_external_scanner_scan
                payload (w_lexer w) valid_symbols))
        (w_memory w)
  | Reposition lexer => mkWorld lexer (w_memory w)
  end.

Definition session (calls : list Call) (w : World) : World :=
  fold_left call calls w.

(** ** Vocabulary of the properties *)

(** The four characters the loop skips. *)
Definition blank (c : Z) : Prop := c = 32 \/ c = 9 \/ c = 13 \/ c = 10.

Definition is_blank (c : Z) : bool :=
  (c =? 32) || (c =? 9) || (c =? 13) || (c =? 10).

(** The three characters that continue the previous line. *)
Definition continuation (c : Z) : Prop := c = 46 \/ c = 123 \/ c = 124.

(** The cursor is on a newline, and the first character after it that is
    not blank exists and does not continue the previous line. *)
Definition newline_ends_statement (lexer : TSLexer) : Prop :=
  exists ws c tl,
    remaining lexer = 10 :: ws ++ c :: tl /\
    Forall blank ws /\ ~ blank c /\ ~ continuation c.

(** The lexer after the newline and the blank characters [ws] behind it
    were consumed, [rest] being what is left. *)
Definition skipped (lexer : TSLexer) (ws rest : list Z) : TSLexer :=
  mkLexer (token lexer ++ 10 :: ws) rest (result_symbol lexer)
          (S (advance_calls lexer + length ws)).

(** The whole text under the cursor: what went into the token so far,
    then what is left to read. *)
Definition text (lexer : TSLexer) : list Z := token lexer ++ remaining lexer.

(** What a lexer can still spend plus what it has spent: the characters
    left and the calls of [advance] made. *)
Definition budget (lexer : TSLexer) : nat :=
  (advance_calls lexer + length (remaining lexer))%nat.

(** A call of one of the scanner's five entry points, as opposed to a move
    of the cursor by the host. *)
Definition entry_point (c : Call) : Prop :=
  match c with
  | Reposition _ => False
  | _ => True
  end.

(** Test inputs: a fresh cursor on a text, and the two request arrays. *)
Definition lexer_on (input : list Z) : TSLexer := mkLexer [] input 99 0.
Definition permitted : Z -> bool := fun _ => true.
Definition forbidden : Z -> bool := fun _ => false.

(** * Properties *)

(** ** Characters *)

Lemma is_blank_true c : is_blank c = true <-> blank c.
Proof. unfold is_blank, blank. lia. Qed.

Lemma is_blank_false c : is_blank c = false <-> ~ blank c.
Proof. unfold is_blank, blank. lia. Qed.

Lemma at_whitespace_lookahead lexer :
  at_whitespace lexer = is_blank (lookahead lexer).
Proof. reflexivity. Qed.

Lemma is_continuation_start_true c :
  is_continuation_start c = true <-> continuation c.
Proof.
  unfold continuation. split.
  - destruct c as [|p|p]; try discriminate.
    intros H.
    destruct (Z.eq_dec (Z.pos p) 46) as [->|]; [lia|].
    destruct (Z.eq_dec (Z.pos p) 123) as [->|]; [lia|].
    destruct (Z.eq_dec (Z.pos p) 124) as [->|]; [lia|].
    exfalso. revert H. unfold is_continuation_start.
    repeat (destruct p as [p|p|]; try discriminate; try congruence).
  - intros [-> | [-> | ->]]; reflexivity.
Qed.

(** ** The whitespace loop *)

Lemma skip_whitespace_step lexer :
  skip_whitespace lexer =
  if at_whitespace lexer then skip_whitespace (advance lexer false) else lexer.
Proof.
  rewrite skip_whitespace_equation_1.
  generalize (inspect (at_whitespace lexer)).
  intros [[] e]; simpl; rewrite e; reflexivity.
Qed.

(** Every list of characters splits into its longest blank prefix and a
    rest that is empty or starts with a character the loop stops at. *)
Lemma blank_prefix (l : list Z) :
  exists ws rest,
    l = ws ++ rest /\ Forall blank ws /\ is_blank (hd 0 rest) = false.
Proof.
  induction l as [|c l (ws & rest & -> & Hws & Hrest)].
  - exists [], []. split; [reflexivity | split; [constructor | reflexivity]].
  - destruct (is_blank c) eqn:E.
    + exists (c :: ws), rest.
      split; [reflexivity | split; [ | assumption]].
      constructor; [now apply is_blank_true | assumption].
    + exists [], (c :: ws ++ rest).
      split; [reflexivity | split; [constructor | exact E]].
Qed.

(** The loop consumes a blank prefix that is followed by a character it
    stops at, one call of [advance] per character, into the token. *)
Lemma skip_whitespace_run (ws : list Z) :
  forall lexer rest,
    remaining lexer = ws ++ rest ->
    Forall blank ws ->
    is_blank (hd 0 rest) = false ->
    skip_whitespace lexer =
    mkLexer (token lexer ++ ws) rest (result_symbol lexer)
            (advance_calls lexer + length ws).
Proof.
  induction ws as [|c ws IH]; intros lexer rest Hrem Hws Hstop.
  - rewrite skip_whitespace_step, at_whitespace_lookahead.
    unfold lookahead. simpl in Hrem. rewrite Hrem.
    change (match rest with [] => 0 | c :: _ => c end) with (hd 0 rest).
    rewrite Hstop. destruct lexer; simpl in *.
    rewrite app_nil_r, Nat.add_0_r. congruence.
  - inversion Hws as [|? ? Hc Hws']; subst.
    rewrite skip_whitespace_step, at_whitespace_lookahead.
    unfold lookahead. rewrite Hrem. simpl.
    apply is_blank_true in Hc. rewrite Hc.
    rewrite (IH (advance lexer false) rest); trivial.
    + unfold advance. rewrite Hrem. simpl.
      rewrite <- app_assoc. simpl. f_equal. lia.
    + unfold advance. rewrite Hrem. reflexivity.
Qed.

(** ** The two guards and the main path of the scan function *)

Lemma scan_not_permitted payload lexer valid_symbols :
  valid_symbols AUTOMATIC_NEWLINE = false ->
  tree_sitter_dang_external_scanner_scan payload lexer valid_symbols
  = (false, lexer).
Proof.
  intros H. unfold tree_sitter_dang_external_scanner_scan.
  rewrite H. reflexivity.
Qed.

Lemma scan_not_newline payload lexer valid_symbols :
  lookahead lexer <> 10 ->
  tree_sitter_dang_external_scanner_scan payload lexer valid_symbols
  = (false, lexer).
Proof.
  intros H. unfold tree_sitter_dang_external_scanner_scan.
  destruct (valid_symbols AUTOMATIC_NEWLINE); [|reflexivity].
  apply Z.eqb_neq in H. rewrite H. reflexivity.
Qed.

(** Past the second guard: the newline, then the blank characters. *)
Lemma skip_after_newline lexer ws rest :
  remaining lexer = 10 :: ws ++ rest ->
  Forall blank ws ->
  is_blank (hd 0 rest) = false ->
  skip_whitespace (advance lexer false) = skipped lexer ws rest.
Proof.
  intros Hrem Hws Hstop.
  rewrite (skip_whitespace_run ws (advance lexer false) rest); trivial.
  - unfold advance, skipped. rewrite Hrem. simpl.
    rewrite <- app_assoc. reflexivity.
  - unfold advance. rewrite Hrem. reflexivity.
Qed.

(** Past the guards the verdict is read off the first character that is
    not blank. *)
Lemma scan_newline payload lexer valid_symbols ws rest :
  valid_symbols AUTOMATIC_NEWLINE = true ->
  remaining lexer = 10 :: ws ++ rest ->
  Forall blank ws ->
  is_blank (hd 0 rest) = false ->
  tree_sitter_dang_external_scanner_scan payload lexer valid_symbols
  = if is_continuation_start (hd 0 rest) then (false, skipped lexer ws rest)
    else match rest with
         | [] => (false, skipped lexer ws rest)
         | _ :: _ =>
             (true, set_result_symbol (skipped lexer ws rest) AUTOMATIC_NEWLINE)
         end.
Proof.
  intros Hvalid Hrem Hws Hstop.
  unfold tree_sitter_dang_external_scanner_scan.
  rewrite Hvalid. unfold lookahead at 1. rewrite Hrem.
  cbv beta iota zeta. rewrite Z.eqb_refl. cbn [negb].
  rewrite (skip_after_newline lexer ws rest Hrem Hws Hstop).
  unfold lookahead, eof. cbn [skipped remaining].
  destruct rest; reflexivity.
Qed.

Lemma not_continuation c :
  ~ continuation c -> is_continuation_start c = false.
Proof.
  intros H. destruct (is_continuation_start c) eqn:E; [|reflexivity].
  apply is_continuation_start_true in E. contradiction.
Qed.

(** ** The verdicts *)

(** C1. When the automatic-newline token is permitted, the cursor is on a
    newline, and the first character behind it that is not a space, tab,
    carriage return or newline exists and is none of ['.'], ['{'], ['|'],
    the scan returns [true] (the separator verdict) with [result_symbol]
    set to [AUTOMATIC_NEWLINE], and the cursor is left on that character:
    the newline and the blank characters are consumed, nothing else. *)
Theorem scan_separator payload lexer valid_symbols ws c tl :
  valid_symbols AUTOMATIC_NEWLINE = true ->
  remaining lexer = 10 :: ws ++ c :: tl ->
  Forall blank ws ->
  ~ blank c ->
  ~ continuation c ->
  tree_sitter_dang_external_scanner_scan payload lexer valid_symbols
  = (true, mkLexer (token lexer ++ 10 :: ws) (c :: tl) AUTOMATIC_NEWLINE
                   (S (advance_calls lexer + length ws))).
Proof.
  intros Hvalid Hrem Hws Hc Hcont.
  rewrite (scan_newline payload lexer valid_symbols ws (c :: tl)); trivial.
  - simpl. rewrite (not_continuation c Hcont). reflexivity.
  - now apply is_blank_false.
Qed.

(** C2. When the token is permitted, the cursor is on a newline, and the
    first character behind it that is not blank is ['.'], ['{'] or ['|'],
    the scan returns [false] (not applicable) and leaves the cursor on
    that character, [result_symbol] untouched. *)
Theorem scan_continuation payload lexer valid_symbols ws c tl :
  valid_symbols AUTOMATIC_NEWLINE = true ->
  remaining lexer = 10 :: ws ++ c :: tl ->
  Forall blank ws ->
  continuation c ->
  tree_sitter_dang_external_scanner_scan payload lexer valid_symbols
  = (false, mkLexer (token lexer ++ 10 :: ws) (c :: tl) (result_symbol lexer)
                    (S (advance_calls lexer + length ws))).
Proof.
  intros Hvalid Hrem Hws Hc.
  rewrite (scan_newline payload lexer valid_symbols ws (c :: tl)); trivial.
  - simpl. apply is_continuation_start_true in Hc. rewrite Hc. reflexivity.
  - simpl. apply is_blank_false. unfold blank, continuation in *. lia.
Qed.

(** C3. When the token is permitted, the cursor is on a newline, and only
    blank characters are left behind it, the scan returns [false]; and
    whatever the input, a scan that leaves the cursor at end of input has
    not returned [true]. *)
Theorem scan_end_of_input payload lexer valid_symbols ws :
  valid_symbols AUTOMATIC_NEWLINE = true ->
  remaining lexer = 10 :: ws ->
  Forall blank ws ->
  tree_sitter_dang_external_scanner_scan payload lexer valid_symbols
  = (false, mkLexer (token lexer ++ 10 :: ws) [] (result_symbol lexer)
                    (S (advance_calls lexer + length ws)))
  /\ forall p l v,
       eof (snd (tree_sitter_dang_external_scanner_scan p l v)) = true ->
       fst (tree_sitter_dang_external_scanner_scan p l v) = false.
Proof.
  intros Hvalid Hrem Hws. split.
  - rewrite (scan_newline payload lexer valid_symbols ws []); trivial.
    rewrite app_nil_r. assumption.
  - intros p l v. unfold tree_sitter_dang_external_scanner_scan.
    destruct (negb (v AUTOMATIC_NEWLINE)); [reflexivity|].
    destruct (negb (lookahead l =? 10)); [reflexivity|].
    cbv zeta.
    destruct (is_continuation_start _); [reflexivity|].
    destruct (eof (skip_whitespace (advance l false))) eqn:E;
      [reflexivity|].
    simpl. unfold eof in *. simpl. rewrite E. discriminate.
Qed.

(** C4. When the token is not permitted, or the character under the cursor
    is not a newline, the scan returns [false] and hands the lexer back as
    it got it: no call of [advance], nothing consumed, [result_symbol]
    untouched.  So the lexer changes only when the token is permitted and
    the cursor is on a newline. *)
Theorem scan_guards_frame payload lexer valid_symbols :
  valid_symbols AUTOMATIC_NEWLINE = false \/ lookahead lexer <> 10 ->
  tree_sitter_dang_external_scanner_scan payload lexer valid_symbols
  = (false, lexer)
  /\ advance_calls
       (snd (tree_sitter_dang_external_scanner_scan payload lexer valid_symbols))
     = advance_calls lexer.
Proof.
  intros [H | H].
  - rewrite (scan_not_permitted _ _ _ H). split; reflexivity.
  - rewrite (scan_not_newline _ _ _ H). split; reflexivity.
Qed.

(** Every scan either stops at a guard or takes the main path. *)
Lemma scan_cases lexer (valid_symbols : Z -> bool) :
  (valid_symbols AUTOMATIC_NEWLINE = false \/ lookahead lexer <> 10) \/
  exists ws rest,
    valid_symbols AUTOMATIC_NEWLINE = true /\
    remaining lexer = 10 :: ws ++ rest /\
    Forall blank ws /\
    is_blank (hd 0 rest) = false.
Proof.
  destruct (valid_symbols AUTOMATIC_NEWLINE) eqn:Hvalid; [|now left; left].
  destruct (Z.eq_dec (lookahead lexer) 10) as [Hnl | Hnl]; [|now left; right].
  right. unfold lookahead in Hnl.
  destruct (remaining lexer) as [|c l] eqn:Hrem; [discriminate|]. subst c.
  destruct (blank_prefix l) as (ws & rest & -> & Hws & Hstop).
  exists ws, rest. auto.
Qed.

(** C5. The scan returns [true] exactly when the token is permitted, the
    cursor is on a newline, and the first character behind it that is not
    blank exists and is not a continuation start; in every other case it
    returns [false].  The verdict is the returned [bool] of a total
    function: there is no third outcome. *)
Theorem scan_separator_iff payload lexer valid_symbols :
  (fst (tree_sitter_dang_external_scanner_scan payload lexer valid_symbols)
   = true
   <-> valid_symbols AUTOMATIC_NEWLINE = true /\ newline_ends_statement lexer)
  /\
  (fst (tree_sitter_dang_external_scanner_scan payload lexer valid_symbols)
   = false
   <-> ~ (valid_symbols AUTOMATIC_NEWLINE = true /\
          newline_ends_statement lexer)).
Proof.
  assert (Hiff :
    fst (tree_sitter_dang_external_scanner_scan payload lexer valid_symbols)
    = true
    <-> valid_symbols AUTOMATIC_NEWLINE = true /\ newline_ends_statement lexer).
  { split.
    - intros Htrue.
      destruct (scan_cases lexer valid_symbols)
        as [[H | H] | (ws & rest & Hvalid & Hrem & Hws & Hstop)].
      + rewrite (scan_not_permitted _ _ _ H) in Htrue. discriminate.
      + rewrite (scan_not_newline _ _ _ H) in Htrue. discriminate.
      + rewrite (scan_newline _ _ _ ws rest Hvalid Hrem Hws Hstop) in Htrue.
        destruct (is_continuation_start (hd 0 rest)) eqn:Hcont;
          [discriminate|].
        destruct rest as [|c tl]; [discriminate|].
        split; [assumption|]. exists ws, c, tl.
        repeat split; trivial.
        * now apply is_blank_false.
        * intros Hc. apply is_continuation_start_true in Hc.
          simpl in Hcont. congruence.
    - intros [Hvalid (ws & c & tl & Hrem & Hws & Hc & Hcont)].
      rewrite (scan_newline _ _ _ ws (c :: tl) Hvalid Hrem Hws).
      + simpl. rewrite (not_continuation c Hcont). reflexivity.
      + now apply is_blank_false. }
  split; [exact Hiff|].
  rewrite <- Hiff.
  destruct (fst (tree_sitter_dang_external_scanner_scan _ _ _));
    split; congruence.
Qed.

(** ** The loop *)

Lemma lookahead_hd lexer : lookahead lexer = hd 0 (remaining lexer).
Proof. unfold lookahead. destruct (remaining lexer); reflexivity. Qed.

(** A blank run that ends before a character that is not blank, or at the
    end of the text, is the longest blank run the text starts with. *)
Lemma blank_run_longest (ws : list Z) :
  forall ws' rest rest',
    ws ++ rest = ws' ++ rest' ->
    ~ blank (hd 0 rest) ->
    Forall blank ws' ->
    (length ws' <= length ws)%nat.
Proof.
  induction ws as [|a ws IH]; intros ws' rest rest' Heq Hstop Hws'.
  - destruct ws' as [|b ws']; [reflexivity|].
    simpl in Heq. subst rest. inversion Hws'; subst. contradiction.
  - destruct ws' as [|b ws']; [simpl; lia|].
    simpl in Heq. injection Heq as _ Heq. inversion Hws'; subst.
    simpl. apply le_n_S. exact (IH ws' rest rest' Heq Hstop ltac:(assumption)).
Qed.

(** C6. On every input the whitespace loop returns.  It consumes a run
    [ws] of characters that are all spaces, tabs, carriage returns or
    newlines, with one call of [advance] for each, into the token, and it
    stops on a character that is none of the four or at end of input: [ws]
    is the longest run of these characters the input starts with, no more
    and no less.  The run is no longer than what was left of the input, so
    no call of [advance] is made at end of input.  Whenever the lookahead
    is one of the four characters the cursor is away from the end of
    input, the loop takes a turn, and that turn consumes exactly one
    character, which is why the loop ends. *)
Theorem skip_whitespace_bounded lexer :
  (exists ws,
     Forall blank ws /\
     remaining lexer = ws ++ remaining (skip_whitespace lexer) /\
     ~ blank (lookahead (skip_whitespace lexer)) /\
     (forall ws' rest',
        remaining lexer = ws' ++ rest' ->
        Forall blank ws' ->
        (length ws' <= length ws)%nat) /\
     token (skip_whitespace lexer) = token lexer ++ ws /\
     advance_calls (skip_whitespace lexer)
     = (advance_calls lexer + length ws)%nat /\
     (length ws <= length (remaining lexer))%nat /\
     result_symbol (skip_whitespace lexer) = result_symbol lexer)
  /\
  (forall l,
     blank (lookahead l) ->
     eof l = false /\
     S (length (remaining (advance l false))) = length (remaining l) /\
     skip_whitespace l = skip_whitespace (advance l false)).
Proof.
  split.
  - destruct (blank_prefix (remaining lexer))
      as (ws & rest & Hrem & Hws & Hstop).
    rewrite (skip_whitespace_run ws lexer rest Hrem Hws Hstop).
    apply is_blank_false in Hstop.
    exists ws. rewrite lookahead_hd.
    cbn [remaining token advance_calls result_symbol].
    repeat split; trivial.
    + intros ws' rest' Heq Hws'. rewrite Hrem in Heq.
      exact (blank_run_longest ws ws' rest rest' Heq Hstop Hws').
    + rewrite Hrem, length_app. lia.
  - intros l Hblank.
    assert (Hcond : at_whitespace l = true)
      by (rewrite at_whitespace_lookahead; now apply is_blank_true).
    split; [|split].
    + revert Hcond. unfold at_whitespace, lookahead, eof.
      destruct (remaining l); [discriminate | reflexivity].
    + revert Hcond. unfold at_whitespace, lookahead, advance.
      destruct (remaining l); [discriminate | reflexivity].
    + rewrite (skip_whitespace_step l), Hcond. reflexivity.
Qed.

(** ** Calling again *)

(** A scan that had the token permitted and declined leaves the cursor on
    a character that is not a newline. *)
Lemma scan_declined_off_newline payload lexer valid_symbols lexer' :
  valid_symbols AUTOMATIC_NEWLINE = true ->
  tree_sitter_dang_external_scanner_scan payload lexer valid_symbols
  = (false, lexer') ->
  lookahead lexer' <> 10.
Proof.
  intros Hvalid Hscan.
  destruct (scan_cases lexer valid_symbols)
    as [[H | H] | (ws & rest & _ & Hrem & Hws & Hstop)].
  - congruence.
  - rewrite (scan_not_newline _ _ _ H) in Hscan. congruence.
  - rewrite (scan_newline _ _ _ ws rest Hvalid Hrem Hws Hstop) in Hscan.
    assert (Hl : lexer' = skipped lexer ws rest).
    { destruct (is_continuation_start (hd 0 rest)); [congruence|].
      destruct rest; [congruence | discriminate]. }
    subst lexer'. unfold lookahead. cbn [skipped remaining].
    intros Hnl. apply is_blank_false in Hstop. apply Hstop.
    unfold blank. destruct rest; simpl in *; lia.
Qed.

(** C7. When a scan has returned [false] and left the cursor on a
    character that is not a newline, a scan from the lexer it left, with
    any payload and any request array, returns [false] again and hands
    that lexer back unchanged. *)
Theorem scan_again_not_applicable payload lexer valid_symbols lexer' :
  tree_sitter_dang_external_scanner_scan payload lexer valid_symbols
  = (false, lexer') ->
  lookahead lexer' <> 10 ->
  forall payload' valid_symbols',
    tree_sitter_dang_external_scanner_scan payload' lexer' valid_symbols'
    = (false, lexer').
Proof.
  intros _ Hnl payload' valid_symbols'.
  now apply scan_not_newline.
Qed.

(** ** The life cycle *)

Lemma call_memory w c : w_memory (call w c) = w_memory w.
Proof. destruct c; reflexivity. Qed.

Lemma session_memory calls : forall w, w_memory (session calls w) = w_memory w.
Proof.
  unfold session.
  induction calls as [|c calls IH]; intros w; simpl; [reflexivity|].
  rewrite IH. apply call_memory.
Qed.

(** C8. For every payload, buffer and length, [serialize] returns 0 and
    leaves the memory (its buffer included) as it was, [deserialize]
    changes nothing, [create] returns the null handle without allocating,
    and [destroy] frees nothing; and after any session of calls, scans
    included, the memory is what it was at the start, [serialize] still
    returns 0 and [create] still returns the null handle. *)
Theorem lifecycle_noop (payload : pointer) (buf : list Z) (length : Z)
    (m : Memory) :
  tree_sitter_dang_external_scanner_serialize payload m = (0, m) /\
  tree_sitter_dang_external_scanner_deserialize payload buf length m = m /\
  tree_sitter_dang_external_scanner_create m = (NULL, m) /\
  tree_sitter_dang_external_scanner_destroy payload m = m /\
  forall calls w,
    w_memory (session calls w) = w_memory w /\
    tree_sitter_dang_external_scanner_serialize payload
      (w_memory (session calls w)) = (0, w_memory w) /\
    tree_sitter_dang_external_scanner_create (w_memory (session calls w))
    = (NULL, w_memory w) /\
    tree_sitter_dang_external_scanner_destroy
      (fst (tree_sitter_dang_external_scanner_create
              (w_memory (session calls w))))
      (snd (tree_sitter_dang_external_scanner_create
              (w_memory (session calls w))))
    = w_memory w.
Proof.
  repeat split; try reflexivity.
  - apply session_memory.
  - rewrite session_memory. reflexivity.
  - rewrite session_memory. reflexivity.
  - rewrite session_memory. reflexivity.
Qed.

(** ** The payload and the result slot *)

(** C9. The scan does not read its payload: for any two payloads, the null
    handle of [create] among them, and the same lexer and request array,
    the two scans return the same verdict and leave the same lexer, so
    they made the same calls of [advance] on the same characters. *)
Theorem scan_payload_irrelevant (payload1 payload2 : pointer) lexer
    valid_symbols (m : Memory) :
  tree_sitter_dang_external_scanner_scan payload1 lexer valid_symbols
  = tree_sitter_dang_external_scanner_scan payload2 lexer valid_symbols
  /\
  tree_sitter_dang_external_scanner_scan payload1 lexer valid_symbols
  = tree_sitter_dang_external_scanner_scan
      (fst (tree_sitter_dang_external_scanner_create m)) lexer valid_symbols.
Proof. split; reflexivity. Qed.

(** Neither [advance] nor the loop writes the result slot. *)
Lemma advance_result_symbol lexer skip :
  result_symbol (advance lexer skip) = result_symbol lexer.
Proof. unfold advance. destruct (remaining lexer); reflexivity. Qed.

(** C10. A scan that returns [false] leaves [result_symbol] as it found
    it.  (A scan that returns [true] has set it to [AUTOMATIC_NEWLINE]:
    that is the only write.) *)
Theorem scan_false_result_symbol payload lexer valid_symbols :
  fst (tree_sitter_dang_external_scanner_scan payload lexer valid_symbols)
  = false ->
  result_symbol
    (snd (tree_sitter_dang_external_scanner_scan payload lexer valid_symbols))
  = result_symbol lexer.
Proof.
  intros Hfalse.
  destruct (scan_cases lexer valid_symbols)
    as [[H | H] | (ws & rest & Hvalid & Hrem & Hws & Hstop)].
  - rewrite (scan_not_permitted _ _ _ H). reflexivity.
  - rewrite (scan_not_newline _ _ _ H). reflexivity.
  - rewrite (scan_newline _ _ _ ws rest Hvalid Hrem Hws Hstop) in *.
    destruct (is_continuation_start (hd 0 rest)); [reflexivity|].
    destruct rest; [reflexivity | discriminate].
Qed.

Lemma scan_true_result_symbol payload lexer valid_symbols :
  fst (tree_sitter_dang_external_scanner_scan payload lexer valid_symbols)
  = true ->
  result_symbol
    (snd (tree_sitter_dang_external_scanner_scan payload lexer valid_symbols))
  = AUTOMATIC_NEWLINE.
Proof.
  intros Htrue.
  destruct (scan_cases lexer valid_symbols)
    as [[H | H] | (ws & rest & Hvalid & Hrem & Hws & Hstop)].
  - rewrite (scan_not_permitted _ _ _ H) in Htrue. discriminate.
  - rewrite (scan_not_newline _ _ _ H) in Htrue. discriminate.
  - rewrite (scan_newline _ _ _ ws rest Hvalid Hrem Hws Hstop) in *.
    destruct (is_continuation_start (hd 0 rest)); [discriminate|].
    destruct rest; [discriminate | reflexivity].
Qed.

(** ** The inputs of the description, run

    Code points: ['f'] 102, ['o'] 111, ['>'] 62. *)

Example run_dot_foo :
  tree_sitter_dang_external_scanner_scan NULL
    (lexer_on [10; 46; 102; 111; 111]) permitted
  = (false, mkLexer [10] [46; 102; 111; 111] 99 1).
Proof. reflexivity. Qed.

Example run_brace_foo :
  tree_sitter_dang_external_scanner_scan NULL
    (lexer_on [10; 123; 102; 111; 111]) permitted
  = (false, mkLexer [10] [123; 102; 111; 111] 99 1).
Proof. reflexivity. Qed.

Example run_pipe_foo :
  tree_sitter_dang_external_scanner_scan NULL
    (lexer_on [10; 124; 62; 32; 102; 111; 111]) permitted
  = (false, mkLexer [10] [124; 62; 32; 102; 111; 111] 99 1).
Proof. reflexivity. Qed.

Example run_blank_lines_foo :
  tree_sitter_dang_external_scanner_scan NULL
    (lexer_on [10; 10; 32; 32; 32; 10; 102; 111; 111]) permitted
  = (true, mkLexer [10; 10; 32; 32; 32; 10] [102; 111; 111]
                   AUTOMATIC_NEWLINE 6).
Proof. reflexivity. Qed.

Example run_newline_only :
  tree_sitter_dang_external_scanner_scan NULL (lexer_on [10]) permitted
  = (false, mkLexer [10] [] 99 1).
Proof. reflexivity. Qed.

Example run_newline_foo :
  tree_sitter_dang_external_scanner_scan NULL
    (lexer_on [10; 102; 111; 111]) permitted
  = (true, mkLexer [10] [102; 111; 111] AUTOMATIC_NEWLINE 1).
Proof. reflexivity. Qed.

Example run_not_permitted :
  tree_sitter_dang_external_scanner_scan NULL
    (lexer_on [10; 102; 111; 111]) forbidden
  = (false, lexer_on [10; 102; 111; 111]).
Proof. reflexivity. Qed.

Example run_not_on_newline :
  tree_sitter_dang_external_scanner_scan NULL
    (lexer_on [102; 111; 111; 10]) permitted
  = (false, lexer_on [102; 111; 111; 10]).
Proof. reflexivity. Qed.

(** ** The theorems with hypotheses, at concrete inputs *)

Ltac all_blank :=
  repeat (apply Forall_cons; [unfold blank; lia|]); apply Forall_nil.

(** A newline, a blank line, an indented blank line with a tab and a
    carriage return, then [foo]. *)
Lemma scan_separator_witness :
  permitted AUTOMATIC_NEWLINE = true /\
  tree_sitter_dang_external_scanner_scan NULL
    (lexer_on [10; 10; 32; 9; 13; 10; 102; 111; 111]) permitted
  = (true, mkLexer [10; 10; 32; 9; 13; 10] [102; 111; 111]
                   AUTOMATIC_NEWLINE 6).
Proof.
  split; [reflexivity|].
  apply (scan_separator NULL
           (lexer_on [10; 10; 32; 9; 13; 10; 102; 111; 111]) permitted
           [10; 32; 9; 13; 10] 102 [111; 111]).
  - reflexivity.
  - reflexivity.
  - all_blank.
  - unfold blank; lia.
  - unfold continuation; lia.
Defined.

(** A newline, two spaces, then [|> f]. *)
Lemma scan_continuation_witness :
  continuation 124 /\
  tree_sitter_dang_external_scanner_scan NULL
    (lexer_on [10; 32; 32; 124; 62; 32; 102]) permitted
  = (false, mkLexer [10; 32; 32] [124; 62; 32; 102] 99 3).
Proof.
  assert (H : continuation 124) by (unfold continuation; lia).
  split; [exact H|].
  apply (scan_continuation NULL
           (lexer_on [10; 32; 32; 124; 62; 32; 102]) permitted
           [32; 32] 124 [62; 32; 102]).
  - reflexivity.
  - reflexivity.
  - all_blank.
  - exact H.
Defined.

(** A newline, a space and a second newline, then the end of the input. *)
Lemma scan_end_of_input_witness :
  permitted AUTOMATIC_NEWLINE = true /\
  tree_sitter_dang_external_scanner_scan NULL (lexer_on [10; 32; 10]) permitted
  = (false, mkLexer [10; 32; 10] [] 99 3).
Proof.
  split; [reflexivity|].
  apply (scan_end_of_input NULL (lexer_on [10; 32; 10]) permitted [32; 10]).
  - reflexivity.
  - reflexivity.
  - all_blank.
Defined.

(** The token is not permitted, on [\nfoo]; and it is permitted, on
    [foo\n]. *)
Lemma scan_guards_frame_witness :
  tree_sitter_dang_external_scanner_scan NULL
    (lexer_on [10; 102; 111; 111]) forbidden
  = (false, lexer_on [10; 102; 111; 111])
  /\
  tree_sitter_dang_external_scanner_scan NULL
    (lexer_on [102; 111; 111; 10]) permitted
  = (false, lexer_on [102; 111; 111; 10]).
Proof.
  split.
  - apply (scan_guards_frame NULL (lexer_on [10; 102; 111; 111]) forbidden).
    left. reflexivity.
  - apply (scan_guards_frame NULL (lexer_on [102; 111; 111; 10]) permitted).
    right. unfold lookahead, lexer_on. simpl. lia.
Defined.

(** After [\n.f] was declined, the cursor is on the dot. *)
Lemma scan_again_not_applicable_witness :
  tree_sitter_dang_external_scanner_scan NULL
    (mkLexer [10] [46; 102] 99 1) permitted
  = (false, mkLexer [10] [46; 102] 99 1).
Proof.
  apply (scan_again_not_applicable NULL (lexer_on [10; 46; 102]) permitted
           (mkLexer [10] [46; 102] 99 1)).
  - reflexivity.
  - unfold lookahead. simpl. lia.
Defined.

(** [\n{] is declined and the result slot keeps its 99. *)
Lemma scan_false_result_symbol_witness :
  result_symbol
    (snd (tree_sitter_dang_external_scanner_scan NULL
            (lexer_on [10; 123]) permitted))
  = 99.
Proof.
  apply (scan_false_result_symbol NULL (lexer_on [10; 123]) permitted).
  reflexivity.
Defined.

(** * Further properties of the scan function *)

(** ** The shape of every run *)

(** A scan stops at a guard and hands the lexer back, or it takes the main
    path: then the newline and a run of blank characters went into the
    token, one call of [advance] each, and the verdict is read off what
    follows the run. *)
Lemma scan_shape payload lexer valid_symbols :
  (tree_sitter_dang_external_scanner_scan payload lexer valid_symbols
   = (false, lexer) /\
   (valid_symbols AUTOMATIC_NEWLINE = false \/ lookahead lexer <> 10))
  \/
  exists ws rest verdict lexer',
    tree_sitter_dang_external_scanner_scan payload lexer valid_symbols
    = (verdict, lexer') /\
    valid_symbols AUTOMATIC_NEWLINE = true /\
    remaining lexer = 10 :: ws ++ rest /\
    Forall blank ws /\
    is_blank (hd 0 rest) = false /\
    token lexer' = token lexer ++ 10 :: ws /\
    remaining lexer' = rest /\
    advance_calls lexer' = S (advance_calls lexer + length ws) /\
    result_symbol lexer'
    = (if verdict then AUTOMATIC_NEWLINE else result_symbol lexer) /\
    verdict = negb (is_continuation_start (hd 0 rest)) && negb (eof lexer').
Proof.
  destruct (scan_cases lexer valid_symbols)
    as [[H | H] | (ws & rest & Hvalid & Hrem & Hws & Hstop)].
  - left. split; [now apply scan_not_permitted | now left].
  - left. split; [now apply scan_not_newline | now right].
  - right. exists ws, rest.
    rewrite (scan_newline payload _ _ ws rest Hvalid Hrem Hws Hstop).
    destruct (is_continuation_start (hd 0 rest)) eqn:Hcont.
    + exists false, (skipped lexer ws rest). repeat split; trivial.
    + destruct rest as [|c tl].
      * exists false, (skipped lexer ws []). repeat split; trivial.
      * exists true,
          (set_result_symbol (skipped lexer ws (c :: tl)) AUTOMATIC_NEWLINE).
        repeat split; trivial.
Qed.

(** ** What a scan keeps *)

(** X1. A scan never drops a character: every call of [advance] is made
    with [skip] false, so the token text followed by the unread input is
    the same list before and after, whatever the verdict. *)
Theorem scan_keeps_text payload lexer valid_symbols :
  text (snd (tree_sitter_dang_external_scanner_scan
               payload lexer valid_symbols))
  = text lexer.
Proof.
  destruct (scan_shape payload lexer valid_symbols)
    as [[-> _] | (ws & rest & v & l' & -> & _ & Hrem & _ & _ & Htok & Hrest & _)].
  - reflexivity.
  - unfold text. cbn [snd]. rewrite Htok, Hrest, Hrem, <- app_assoc.
    reflexivity.
Qed.

(** X2. Every call of [advance] a scan makes consumes a character: the
    calls made plus the characters left add up to the same number before
    and after, so no call happens at end of input and a scan makes at most
    as many calls as there are characters left. *)
Theorem scan_keeps_budget payload lexer valid_symbols :
  budget (snd (tree_sitter_dang_external_scanner_scan
                 payload lexer valid_symbols))
  = budget lexer
  /\
  (advance_calls (snd (tree_sitter_dang_external_scanner_scan
                         payload lexer valid_symbols))
   <= advance_calls lexer + length (remaining lexer))%nat.
Proof.
  assert (H : budget (snd (tree_sitter_dang_external_scanner_scan
                             payload lexer valid_symbols)) = budget lexer).
  { destruct (scan_shape payload lexer valid_symbols)
      as [[-> _] | (ws & rest & v & l' & -> & _ & Hrem & _ & _ & _ & Hrest
                    & Hcalls & _)].
    - reflexivity.
    - unfold budget. cbn [snd]. rewrite Hcalls, Hrest, Hrem.
      cbn [length]. rewrite length_app. lia. }
  split; [exact H|]. unfold budget in H. lia.
Qed.

(** ** What a verdict tells *)

(** X3. A scan that returns [true] has consumed the newline under the
    cursor and the run of blank characters behind it, and nothing else: the
    token grew by exactly these characters, so it is never empty; the
    cursor is then on a character of the input, not at its end, that is
    neither blank nor a continuation start; and [result_symbol] is
    [AUTOMATIC_NEWLINE]. *)
Theorem scan_true_consumed payload lexer valid_symbols lexer' :
  tree_sitter_dang_external_scanner_scan payload lexer valid_symbols
  = (true, lexer') ->
  exists ws,
    Forall blank ws /\
    remaining lexer = 10 :: ws ++ remaining lexer' /\
    token lexer' = token lexer ++ 10 :: ws /\
    eof lexer' = false /\
    ~ blank (lookahead lexer') /\
    ~ continuation (lookahead lexer') /\
    result_symbol lexer' = AUTOMATIC_NEWLINE.
Proof.
  intros Hscan.
  destruct (scan_shape payload lexer valid_symbols)
    as [[H _] | (ws & rest & v & l' & H & _ & Hrem & Hws & Hstop & Htok
                 & Hrest & _ & Hsym & Hv)].
  - congruence.
  - rewrite Hscan in H. injection H as <- <-.
    symmetry in Hv. apply andb_true_iff in Hv. destruct Hv as [Hcont Heof].
    apply negb_true_iff in Hcont, Heof.
    exists ws. subst rest.
    assert (Hla : lookahead lexer' = hd 0 (remaining lexer'))
      by (unfold lookahead; destruct (remaining lexer'); reflexivity).
    rewrite Hla. repeat split; trivial.
    + now apply is_blank_false.
    + intros Hc. apply is_continuation_start_true in Hc. congruence.
Qed.

(** X4. A scan consumes something exactly when both guards pass: it has
    made a call of [advance] if and only if the token is permitted and the
    cursor is on a newline, whatever verdict it returns afterwards.  A
    declined scan on the main path has consumed the newline all the same. *)
Theorem scan_advances_iff payload lexer valid_symbols :
  (advance_calls lexer
   < advance_calls (snd (tree_sitter_dang_external_scanner_scan
                           payload lexer valid_symbols)))%nat
  <-> valid_symbols AUTOMATIC_NEWLINE = true /\ lookahead lexer = 10.
Proof.
  destruct (scan_shape payload lexer valid_symbols)
    as [[-> Hguard] | (ws & rest & v & l' & -> & Hvalid & Hrem & _ & _ & _ & _
                       & Hcalls & _)].
  - cbn [snd]. split; [lia|].
    intros [Hvalid Hnl]. destruct Hguard; congruence.
  - cbn [snd]. rewrite Hcalls. split; [|lia].
    intros _. split; [assumption|]. unfold lookahead. rewrite Hrem.
    reflexivity.
Qed.

(** The cursor a permitted scan leaves is never on a newline. *)
Lemma scan_permitted_off_newline payload lexer valid_symbols :
  valid_symbols AUTOMATIC_NEWLINE = true ->
  lookahead (snd (tree_sitter_dang_external_scanner_scan
                    payload lexer valid_symbols)) <> 10.
Proof.
  intros Hvalid.
  destruct (scan_shape payload lexer valid_symbols)
    as [[-> Hguard] | (ws & rest & v & l' & -> & _ & _ & _ & Hstop & _ & Hrest
                       & _)].
  - cbn [snd]. destruct Hguard; congruence.
  - cbn [snd]. unfold lookahead. rewrite Hrest.
    apply is_blank_false in Hstop. unfold blank in Hstop.
    destruct rest; simpl in *; lia.
Qed.

(** X5. After a scan that had the token permitted, whatever its verdict,
    a second scan from the lexer it left returns [false] and changes
    nothing, for any payload and request array: the scanner never yields
    two separators in a row, and scanning a position twice does no more
    than scanning it once. *)
Theorem scan_twice payload lexer valid_symbols :
  valid_symbols AUTOMATIC_NEWLINE = true ->
  forall payload' valid_symbols',
    tree_sitter_dang_external_scanner_scan payload'
      (snd (tree_sitter_dang_external_scanner_scan
              payload lexer valid_symbols))
      valid_symbols'
    = (false,
       snd (tree_sitter_dang_external_scanner_scan
              payload lexer valid_symbols)).
Proof.
  intros Hvalid payload' valid_symbols'.
  apply scan_not_newline.
  now apply scan_permitted_off_newline.
Qed.

(** X6. The verdict depends on the first character behind the newline that
    is not blank, or on there being none, and on nothing else: two scans
    with the same permission, on inputs that start with a newline and agree
    on that character, return the same verdict, whatever the blank runs in
    between, the text further on, the token so far and the result slot. *)
Theorem scan_verdict_first_significant
    payload1 payload2 lexer1 lexer2 valid_symbols1 valid_symbols2
    ws1 ws2 rest1 rest2 :
  valid_symbols1 AUTOMATIC_NEWLINE = valid_symbols2 AUTOMATIC_NEWLINE ->
  remaining lexer1 = 10 :: ws1 ++ rest1 ->
  remaining lexer2 = 10 :: ws2 ++ rest2 ->
  Forall blank ws1 ->
  Forall blank ws2 ->
  hd_error rest1 = hd_error rest2 ->
  (forall c, hd_error rest1 = Some c -> ~ blank c) ->
  fst (tree_sitter_dang_external_scanner_scan payload1 lexer1 valid_symbols1)
  = fst (tree_sitter_dang_external_scanner_scan payload2 lexer2 valid_symbols2).
Proof.
  intros Hperm Hrem1 Hrem2 Hws1 Hws2 Hhd Hsig.
  assert (Hstop : forall rest,
             hd_error rest = hd_error rest1 -> is_blank (hd 0 rest) = false).
  { intros [|c tl] E; [reflexivity|].
    simpl. apply is_blank_false. apply Hsig. now rewrite <- E. }
  destruct (valid_symbols1 AUTOMATIC_NEWLINE) eqn:Hvalid1.
  - rewrite (scan_newline payload1 _ _ ws1 rest1 Hvalid1 Hrem1 Hws1)
      by now apply Hstop.
    rewrite (scan_newline payload2 _ _ ws2 rest2 (eq_sym Hperm) Hrem2 Hws2)
      by (apply Hstop; now symmetry).
    destruct rest1 as [|c1 tl1], rest2 as [|c2 tl2]; try discriminate.
    + reflexivity.
    + injection Hhd as <-. simpl.
      destruct (is_continuation_start c1); reflexivity.
  - rewrite (scan_not_permitted payload1 _ _ Hvalid1).
    rewrite (scan_not_permitted payload2 _ _ (eq_sym Hperm)).
    reflexivity.
Qed.

(** ** The loop on its own *)

(** X7. The whitespace loop hands its lexer back unchanged exactly when
    the lookahead is none of space, tab, carriage return and newline (so
    also at end of input); otherwise it has consumed at least one
    character.  The lexer it returns is one it would hand back unchanged:
    running the loop a second time changes nothing. *)
Theorem skip_whitespace_fixpoint lexer :
  (skip_whitespace lexer = lexer <-> ~ blank (lookahead lexer)) /\
  (blank (lookahead lexer) ->
   (length (remaining (skip_whitespace lexer)) < length (remaining lexer))%nat)
  /\
  ~ blank (lookahead (skip_whitespace lexer)) /\
  skip_whitespace (skip_whitespace lexer) = skip_whitespace lexer.
Proof.
  assert (Hfix : forall l, ~ blank (lookahead l) -> skip_whitespace l = l).
  { intros l H. apply is_blank_false in H.
    rewrite skip_whitespace_step, at_whitespace_lookahead, H. reflexivity. }
  destruct (blank_prefix (remaining lexer)) as (ws & rest & Hrem & Hws & Hstop).
  pose proof (skip_whitespace_run ws lexer rest Hrem Hws Hstop) as Hrun.
  apply is_blank_false in Hstop.
  assert (Hout : ~ blank (lookahead (skip_whitespace lexer)))
    by (rewrite Hrun, lookahead_hd; exact Hstop).
  assert (Hmove : blank (lookahead lexer) ->
            (length (remaining (skip_whitespace lexer))
             < length (remaining lexer))%nat).
  { intros Hblank. rewrite Hrun. cbn [remaining].
    rewrite Hrem, length_app.
    destruct ws as [|c ws]; [|simpl; lia].
    rewrite lookahead_hd, Hrem in Hblank. contradiction. }
  split; [split | split; [exact Hmove | split; [exact Hout|]]].
  - intros Hsame Hblank. apply Hmove in Hblank.
    rewrite Hsame in Hblank. lia.
  - apply Hfix.
  - apply Hfix. exact Hout.
Qed.

(** ** Sessions *)

Lemma call_conserves w c :
  entry_point c ->
  text (w_lexer (call w c)) = text (w_lexer w) /\
  budget (w_lexer (call w c)) = budget (w_lexer w).
Proof.
  destruct c as [| | | |payload valid_symbols|]; intros Hc;
    try (split; reflexivity); [|contradiction].
  cbn [call w_lexer].
  destruct (scan_shape payload (w_lexer w) valid_symbols)
    as [[-> _] | (ws & rest & v & l' & -> & _ & Hrem & _ & _ & Htok & Hrest
                  & Hcalls & _)].
  - split; reflexivity.
  - unfold text, budget. cbn [snd]. rewrite Htok, Hrest, Hcalls, Hrem.
    split.
    + rewrite <- app_assoc. reflexivity.
    + cbn [length]. rewrite length_app. lia.
Qed.

(** X8. However the host interleaves calls of the five entry points, as
    long as it does not move the cursor itself, the text under the cursor
    stays the same and the calls of [advance] made during the whole session
    number at most the characters that were left at its start: repeated
    scans cannot run past the end of the input. *)
Theorem session_keeps_text_and_budget calls :
  forall w,
    Forall entry_point calls ->
    text (w_lexer (session calls w)) = text (w_lexer w) /\
    (advance_calls (w_lexer (session calls w))
     <= advance_calls (w_lexer w) + length (remaining (w_lexer w)))%nat.
Proof.
  assert (H : forall w, Forall entry_point calls ->
            text (w_lexer (session calls w)) = text (w_lexer w) /\
            budget (w_lexer (session calls w)) = budget (w_lexer w)).
  { unfold session.
    induction calls as [|c calls IH]; intros w Hcalls; [split; reflexivity|].
    inversion Hcalls as [|? ? Hc Hrest]; subst.
    destruct (call_conserves w c Hc) as [Ht Hb].
    destruct (IH (call w c) Hrest) as [Ht' Hb'].
    cbn [fold_left]. rewrite Ht', Hb'. auto. }
  intros w Hcalls. destruct (H w Hcalls) as [Ht Hb].
  split; [exact Ht|]. unfold budget in Hb. lia.
Qed.

(** ** The further theorems with hypotheses, at concrete inputs *)

(** [\n f]: newline, space, then [f]. *)
Lemma scan_true_consumed_witness :
  exists ws,
    Forall blank ws /\
    remaining (lexer_on [10; 32; 102])
    = 10 :: ws ++ remaining (mkLexer [10; 32] [102] AUTOMATIC_NEWLINE 2) /\
    token (mkLexer [10; 32] [102] AUTOMATIC_NEWLINE 2)
    = token (lexer_on [10; 32; 102]) ++ 10 :: ws /\
    eof (mkLexer [10; 32] [102] AUTOMATIC_NEWLINE 2) = false /\
    ~ blank (lookahead (mkLexer [10; 32] [102] AUTOMATIC_NEWLINE 2)) /\
    ~ continuation (lookahead (mkLexer [10; 32] [102] AUTOMATIC_NEWLINE 2)) /\
    result_symbol (mkLexer [10; 32] [102] AUTOMATIC_NEWLINE 2)
    = AUTOMATIC_NEWLINE.
Proof.
  apply (scan_true_consumed NULL (lexer_on [10; 32; 102]) permitted
           (mkLexer [10; 32] [102] AUTOMATIC_NEWLINE 2)).
  reflexivity.
Defined.

(** Two newlines, then [f]: the first scan returns the separator, the
    second, permitted as well, declines. *)
Lemma scan_twice_witness :
  tree_sitter_dang_external_scanner_scan NULL
    (lexer_on [10; 10; 102]) permitted
  = (true, mkLexer [10; 10] [102] AUTOMATIC_NEWLINE 2)
  /\
  tree_sitter_dang_external_scanner_scan NULL
    (mkLexer [10; 10] [102] AUTOMATIC_NEWLINE 2) permitted
  = (false, mkLexer [10; 10] [102] AUTOMATIC_NEWLINE 2).
Proof.
  split; [reflexivity|].
  apply (scan_twice NULL (lexer_on [10; 10; 102]) permitted eq_refl
           NULL permitted).
Defined.

(** [\n.f] against a newline, a blank line with a space, then a dot. *)
Lemma scan_verdict_first_significant_witness :
  fst (tree_sitter_dang_external_scanner_scan NULL
         (lexer_on [10; 46; 102]) permitted)
  = fst (tree_sitter_dang_external_scanner_scan 7
           (mkLexer [102] [10; 10; 32; 46] 5 3) permitted).
Proof.
  apply (scan_verdict_first_significant NULL 7
           (lexer_on [10; 46; 102]) (mkLexer [102] [10; 10; 32; 46] 5 3)
           permitted permitted [] [10; 32] [46; 102] [46]).
  - reflexivity.
  - reflexivity.
  - reflexivity.
  - all_blank.
  - all_blank.
  - reflexivity.
  - intros c Hc. injection Hc as <-. unfold blank. lia.
Defined.

(** Five calls on [\n f\n.]: scans, permitted and not, around a
    [serialize] and a [create]. *)
Lemma session_keeps_text_and_budget_witness :
  text (w_lexer
          (session
             [Scan NULL permitted; Serialize NULL; Scan NULL forbidden;
              Create; Scan NULL permitted]
             (mkWorld (lexer_on [10; 32; 102; 10; 46]) (mkMemory [] []))))
  = [10; 32; 102; 10; 46]
  /\
  (advance_calls
     (w_lexer
        (session
           [Scan NULL permitted; Serialize NULL; Scan NULL forbidden;
            Create; Scan NULL permitted]
           (mkWorld (lexer_on [10; 32; 102; 10; 46]%Z) (mkMemory [] []))))
   <= 0 + 5)%nat.
Proof.
  apply (session_keeps_text_and_budget
           [Scan NULL permitted; Serialize NULL; Scan NULL forbidden;
            Create; Scan NULL permitted]
           (mkWorld (lexer_on [10; 32; 102; 10; 46]) (mkMemory [] []))).
  repeat (apply Forall_cons; [exact I|]). apply Forall_nil.
Defined.

(** ** Scanning one position many times *)

(** Off a newline no entry point moves the cursor. *)
Lemma session_off_newline calls :
  forall w,
    Forall entry_point calls ->
    lookahead (w_lexer w) <> 10 ->
    w_lexer (session calls w) = w_lexer w.
Proof.
  unfold session.
  induction calls as [|c calls IH]; intros w Hcalls Hnl; [reflexivity|].
  inversion Hcalls as [|? ? Hc Hrest]; subst.
  assert (Hsame : w_lexer (call w c) = w_lexer w).
  { destruct c; try reflexivity; [|contradiction].
    cbn [call w_lexer]. now rewrite scan_not_newline. }
  cbn [fold_left]. rewrite IH; trivial. now rewrite Hsame.
Qed.

(** X9. A session of entry-point calls at one position does what at most
    one scan does: the lexer at its end is the lexer at its start, or the
    lexer that the first scan with the token permitted left.  All later
    scans, and all scans without the permission, change nothing. *)
Theorem session_at_most_one_scan calls :
  forall w,
    Forall entry_point calls ->
    w_lexer (session calls w) = w_lexer w \/
    exists payload valid_symbols,
      In (Scan payload valid_symbols) calls /\
      valid_symbols AUTOMATIC_NEWLINE = true /\
      w_lexer (session calls w)
      = snd (tree_sitter_dang_external_scanner_scan
               payload (w_lexer w) valid_symbols).
Proof.
  induction calls as [|c calls IH]; intros w Hcalls; [now left|].
  inversion Hcalls as [|? ? Hc Hrest]; subst.
  assert (Hkeep : w_lexer (call w c) = w_lexer w ->
            w_lexer (session (c :: calls) w) = w_lexer w \/
            exists payload valid_symbols,
              In (Scan payload valid_symbols) (c :: calls) /\
              valid_symbols AUTOMATIC_NEWLINE = true /\
              w_lexer (session (c :: calls) w)
              = snd (tree_sitter_dang_external_scanner_scan
                       payload (w_lexer w) valid_symbols)).
  { intros Hsame. change (session (c :: calls) w) with (session calls (call w c)).
    destruct (IH (call w c) Hrest) as [H | (p & v & Hin & Hv & H)].
    - left. now rewrite H.
    - right. exists p, v. rewrite H, Hsame. auto using in_cons. }
  destruct c as [| | | |payload valid_symbols|];
    try (apply Hkeep; reflexivity); [|contradiction].
  destruct (valid_symbols AUTOMATIC_NEWLINE) eqn:Hvalid.
  - right. exists payload, valid_symbols.
    split; [now left|]. split; [assumption|].
    change (session (Scan payload valid_symbols :: calls) w)
      with (session calls (call w (Scan payload valid_symbols))).
    rewrite session_off_newline; trivial.
    cbn [call w_lexer]. now apply scan_permitted_off_newline.
  - apply Hkeep. cbn [call w_lexer]. now rewrite scan_not_permitted.
Qed.

(** Three scans on [\n\nf], the first without the permission. *)
Lemma session_at_most_one_scan_witness :
  w_lexer
    (session [Scan NULL forbidden; Scan NULL permitted; Scan 7 permitted]
       (mkWorld (lexer_on [10; 10; 102]) (mkMemory [] [])))
  = lexer_on [10; 10; 102]
  \/
  exists payload valid_symbols,
    In (Scan payload valid_symbols)
       [Scan NULL forbidden; Scan NULL permitted; Scan 7 permitted] /\
    valid_symbols AUTOMATIC_NEWLINE = true /\
    w_lexer
      (session [Scan NULL forbidden; Scan NULL permitted; Scan 7 permitted]
         (mkWorld (lexer_on [10; 10; 102]) (mkMemory [] [])))
    = snd (tree_sitter_dang_external_scanner_scan
             payload (lexer_on [10; 10; 102]) valid_symbols).
Proof.
  apply (session_at_most_one_scan
           [Scan NULL forbidden; Scan NULL permitted; Scan 7 permitted]
           (mkWorld (lexer_on [10; 10; 102]) (mkMemory [] []))).
  repeat (apply Forall_cons; [exact I|]). apply Forall_nil.
Defined.
